(** * pyMIC [OffloadArray]: a shallow embedding of [pymic/offload_array.py]

    The class [OffloadArray] pairs a host [numpy.ndarray] with a buffer on
    a coprocessor that is reached through an [OffloadStream].  Its methods
    are embedded as computations in a state-and-exception monad: the state
    is the ordered list of commands handed to streams together with the
    supply of fresh host memory blocks; a Python exception ends the
    computation and keeps whatever state was reached when it was raised. *)

From Stdlib Require Import ZArith List String Bool Lia.
From Stdlib Require Import Floats.SpecFloat.
Import ListNotations.
Open Scope string_scope.
Open Scope list_scope.
Open Scope Z_scope.

(** ** Python values the class touches *)

(** The fixed-width numeric [numpy.dtype]s. *)
Inductive numpy_dtype :=
| bool_
| int8 | int16 | int32 | int64
| uint8 | uint16 | uint32 | uint64
| float16 | float32 | float64
| complex64 | complex128.

Definition dtype_eqb (a b : numpy_dtype) : bool :=
  match a, b with
  | bool_, bool_ | int8, int8 | int16, int16 | int32, int32 | int64, int64
  | uint8, uint8 | uint16, uint16 | uint32, uint32 | uint64, uint64
  | float16, float16 | float32, float32 | float64, float64
  | complex64, complex64 | complex128, complex128 => true
  | _, _ => false
  end.

(** [numpy.dtype.itemsize], in bytes. *)
Definition itemsize (d : numpy_dtype) : Z :=
  match d with
  | bool_ | int8 | uint8 => 1
  | int16 | uint16 | float16 => 2
  | int32 | uint32 | float32 => 4
  | int64 | uint64 | float64 | complex64 => 8
  | complex128 => 16
  end.

(** What [type(value)] can be.  [type_other] stands for every class that
    numpy does not convert to one of the numeric dtypes above ([NoneType],
    [str], [list], ...). *)
Inductive pytype :=
| type_int | type_float | type_complex | type_bool
| type_numpy (d : numpy_dtype)
| type_other.

(** [numpy.dtype(t)] for a Python type [t], on the 64-bit Linux hosts the
    offload runtime supports: [int] is the C [long], [float] the C
    [double]. *)
Definition dtype_of_type (t : pytype) : option numpy_dtype :=
  match t with
  | type_int => Some int64
  | type_float => Some float64
  | type_complex => Some complex128
  | type_bool => Some bool_
  | type_numpy d => Some d
  | type_other => None
  end.

(** [dtype == t] between a [numpy.dtype] and a Python type: numpy converts
    the right-hand side to a dtype and compares. *)
Definition dtype_eq_type (d : numpy_dtype) (t : pytype) : bool :=
  match dtype_of_type t with
  | Some d' => dtype_eqb d d'
  | None => false
  end.

(** Storage order of a host array: ["C"] or ["F"]. *)
Inductive storage_order := order_C | order_F.

(** A host [numpy.ndarray], as far as the class looks at it: the memory
    block it lives in (two arrays with the same block are views of one
    another), its shape and its dtype. *)
Record ndarray := mk_ndarray {
  arr_data : nat;
  arr_shape : list Z;
  arr_dtype : numpy_dtype;
  arr_order : storage_order
}.

(** An [OffloadDevice] object; [dev_obj] is its identity (what [is]
    compares). *)
Record OffloadDevice := mk_device {
  dev_obj : nat;
  device_id : Z
}.

Definition device_is (a b : OffloadDevice) : bool :=
  Nat.eqb (dev_obj a) (dev_obj b).

(** An [OffloadStream] object, bound to one device. *)
Record OffloadStream := mk_stream {
  stream_obj : nat;
  stream_device : OffloadDevice
}.

Definition get_device (s : OffloadStream) : OffloadDevice := stream_device s.

(** A loaded ["liboffload_array.so"]. *)
Record library := mk_library { lib_obj : nat }.

(** The entry points of the native library the class calls. *)
Inductive kernel :=
| pymic_offload_array_add
| pymic_offload_array_sub
| pymic_offload_array_mul
| pymic_offload_array_pow
| pymic_offload_array_fill
| pymic_offload_array_setslice.

(** The attributes [__init__] sets.  [array] is [None] for a handle built
    with [alloc_arr=False] and no [base]. *)
#[warnings="-register-all"]
Inductive OffloadArray := mk_OffloadArray {
  order : storage_order;
  dtype : numpy_dtype;
  base : option OffloadArray;
  device : OffloadDevice;
  stream : OffloadStream;
  size : Z;
  shape : list Z;
  nbytes : Z;
  array : option ndarray;
  _library : library
}.

(** The Python objects that are passed to the methods or on to a kernel. *)
Inductive pyobj :=
| PyNone
| PyInt (z : Z)
| PyFloat (x : spec_float)
| PyComplex (re im : spec_float)
| PyBool (b : bool)
| PyNumpyScalar (d : numpy_dtype) (bits : Z)
| PyStr (s : string)
| PyArray (a : ndarray)
| PyHandle (h : OffloadArray).

Definition type_of (v : pyobj) : pytype :=
  match v with
  | PyInt _ => type_int
  | PyFloat _ => type_float
  | PyComplex _ _ => type_complex
  | PyBool _ => type_bool
  | PyNumpyScalar d _ => type_numpy d
  | PyNone | PyStr _ | PyArray _ | PyHandle _ => type_other
  end.

(** An attribute holding an array or [None], as a Python object. *)
Definition py_of_array (a : option ndarray) : pyobj :=
  match a with
  | Some a => PyArray a
  | None => PyNone
  end.

(** The [shape] argument of the constructor: an integer or a sequence of
    integers. *)
Inductive pyshape :=
| ShapeInt (n : Z)
| ShapeSeq (dims : list Z).

(** The float literals of [zero] and [one], in binary64. *)
Definition float_0_0 : spec_float := S754_zero false.
Definition float_1_0 : spec_float := S754_finite false 4503599627370496 (-52).

(** ** Exceptions, state and the monad *)

(** Exceptions by class.  A [ValueError] or [TypeError] carries the text
    of the source; where the source formats values into the text, the
    template is kept and the formatted values are not modelled. *)
Inductive exception :=
| ValueError (msg : string)
| TypeError (msg : string)
| AttributeError (msg : string)
| NameError (name : string)
| KeyError (key : Z)
| AssertionError.

Inductive result (A : Type) :=
| Ok (a : A)
| Raised (e : exception).
Arguments Ok {A} a.
Arguments Raised {A} e.

(** Modelled from the spec: the Stream is an external collaborator, "an
    ordered command queue bound to one device" (sections 2, 5 and 6); its
    methods [_buffer_allocate], [_buffer_release],
    [_buffer_update_on_target], [_buffer_update_on_host] and [invoke] are
    not in this file of the repository.  Each call is recorded, with the
    stream it was made on and its arguments, in submission order. *)
Inductive command :=
| buffer_allocate (s : OffloadStream) (a : ndarray)
| buffer_release (s : OffloadStream) (a : option ndarray)
| buffer_update_on_target (s : OffloadStream) (a : option ndarray)
| buffer_update_on_host (s : OffloadStream) (a : option ndarray)
| invoke_kernel (s : OffloadStream) (l : library) (k : kernel)
    (args : list pyobj).

Record world := mk_world {
  queue : list command;
  next_data : nat
}.

Definition M (S A : Type) : Type := S -> result A * S.

Definition ret {S A} (a : A) : M S A := fun s => (Ok a, s).

Definition raise {S A} (e : exception) : M S A := fun s => (Raised e, s).

Definition mbind {S A B} (c : M S A) (k : A -> M S B) : M S B :=
  fun s =>
    match c s with
    | (Ok a, s') => k a s'
    | (Raised e, s') => (Raised e, s')
    end.

Notation "x <- c ;; k" := (mbind c (fun x => k))
  (at level 61, c at next level, right associativity).
Notation "c ;;; k" := (mbind c (fun _ => k))
  (at level 61, right associativity).

(** A pure computation that may raise. *)
Definition lift {S A} (r : result A) : M S A := fun s => (r, s).

Definition enqueue (c : command) : M world pyobj :=
  fun w => (Ok PyNone, mk_world (queue w ++ [c]) (next_data w)).

Definition _buffer_allocate (s : OffloadStream) (a : ndarray) : M world pyobj :=
  enqueue (buffer_allocate s a).
Definition _buffer_release (s : OffloadStream) (a : option ndarray)
  : M world pyobj :=
  enqueue (buffer_release s a).
Definition _buffer_update_on_target (s : OffloadStream) (a : option ndarray)
  : M world pyobj :=
  enqueue (buffer_update_on_target s a).
Definition _buffer_update_on_host (s : OffloadStream) (a : option ndarray)
  : M world pyobj :=
  enqueue (buffer_update_on_host s a).
Definition invoke (s : OffloadStream) (l : library) (k : kernel)
  (args : list pyobj) : M world pyobj :=
  enqueue (invoke_kernel s l k args).

(** ** numpy *)

(** [size = 1; for d in shape: size *= d]. *)
Definition product (dims : list Z) : Z := fold_left Z.mul dims 1.

(** [numpy.empty(shape, dtype, order)]: a new memory block.  numpy also
    refuses an array too big for the address space or for the memory of
    the host; that refusal is outside this model, and what is proved of
    the constructor's allocating path is proved of the runs in which it
    returned (or raised the error named). *)
Definition numpy_empty (dims : list Z) (d : numpy_dtype) (o : storage_order)
  : M world ndarray :=
  fun w =>
    if existsb (fun n => n <? 0) dims
    then (Raised (ValueError "negative dimensions are not allowed"), w)
    else (Ok (mk_ndarray (next_data w) dims d o),
          mk_world (queue w) (Datatypes.S (next_data w))).

(** [a.reshape(shape)] of numpy for an array held in C order: a view of
    the same memory block.  One dimension may be negative and is then
    inferred; a second negative one is an error.  For an array held in
    Fortran order numpy may have to copy into a block of its own, which
    this function does not express: what is proved of views is proved
    for mirrors in C order. *)
Definition ndarray_reshape (a : ndarray) (dims : list Z) : result ndarray :=
  let total := product (arr_shape a) in
  match List.length (filter (fun n => n <? 0) dims) with
  | O =>
      if product dims =? total
      then Ok (mk_ndarray (arr_data a) dims (arr_dtype a) (arr_order a))
      else Raised (ValueError "total size of new array must be unchanged")
  | Datatypes.S O =>
      let known := product (filter (fun n => negb (n <? 0)) dims) in
      if (known =? 0) || negb (total mod known =? 0)
      then Raised (ValueError "total size of new array must be unchanged")
      else Ok (mk_ndarray (arr_data a)
                 (map (fun n => if n <? 0 then total / known else n) dims)
                 (arr_dtype a) (arr_order a))
  | _ => Raised (ValueError "can only specify one unknown dimension")
  end.

(** ** The class *)

(** Modelled from the spec: the decorator [trace] of [_tracing] is not in
    this file of the repository; logging is outside the core (section 1)
    and a decorated method behaves as its body. *)
Definition trace {A : Type} (method : A) : A := method.

(** The positional arguments of [reshape(self, *shape)]: one tuple or list
    of integers, or the integers themselves. *)
Inductive reshape_args :=
| ArgSequence (dims : list Z)
| ArgIntegers (d : Z) (ds : list Z).

(** [obj.array.shape], which raises when [obj.array] is [None]. *)
Definition array_shape {S} (a : option ndarray) : M S (list Z) :=
  match a with
  | Some a => ret (arr_shape a)
  | None => raise (AttributeError "'NoneType' object has no attribute 'shape'")
  end.

(** [reshape]'s first statement: a leading tuple or list replaces the
    tuple of arguments. *)
Definition args_shape (args : reshape_args) : list Z :=
  match args with
  | ArgSequence dims => dims
  | ArgIntegers d ds => d :: ds
  end.

(** The four element-wise binary operators. *)
Inductive binop := op_add | op_sub | op_mul | op_pow.

(** ** Predicates used in the statements *)

(** A handle is an owner when [base is None]. *)
Definition is_owner (h : OffloadArray) : bool :=
  match base h with
  | None => true
  | Some _ => false
  end.

(** A handle has a host mirror of its own shape (section 3 of the spec);
    the constructor leaves [array] unset when called with
    [alloc_arr=False] and no [base]. *)
Definition has_mirror (h : OffloadArray) : bool :=
  match array h with
  | Some a =>
      if list_eq_dec Z.eq_dec (arr_shape a) (shape h) then true else false
  | None => false
  end.

(** The right operand is a handle (with its mirror) or a foreign host
    array. *)
Definition array_like (other : pyobj) : bool :=
  match other with
  | PyHandle o => has_mirror o
  | PyArray _ => true
  | _ => false
  end.

Definition operand_shape (other : pyobj) : list Z :=
  match other with
  | PyHandle o => shape o
  | PyArray a => arr_shape a
  | _ => []
  end.

Definition operand_dtype (other : pyobj) : option numpy_dtype :=
  match other with
  | PyHandle o => Some (dtype o)
  | PyArray a => Some (arr_dtype a)
  | _ => None
  end.

(** What is passed to the kernel for the right operand: the host mirror
    of a handle, the object itself otherwise. *)
Definition right_operand (other : pyobj) : pyobj :=
  match other with
  | PyHandle o => py_of_array (array o)
  | _ => other
  end.

(** The stride flag of the right operand: 1 for an array, 0 for a
    scalar. *)
Definition right_stride (other : pyobj) : Z :=
  match other with
  | PyHandle _ | PyArray _ => 1
  | _ => 0
  end.

(** A shape is valid when its dimensions are positive integers. *)
Definition valid_shape (s : pyshape) : bool :=
  match s with
  | ShapeInt n => 0 <? n
  | ShapeSeq dims => forallb (fun d => 0 <? d) dims
  end.

(** Clamping [x] to [[lo, hi]]. *)
Definition clamp (lo hi x : Z) : Z := Z.max lo (Z.min x hi).

(** Whether a dtype is one of those [zero] and [one] know an identity
    for. *)
Definition known_identity (d : numpy_dtype) : bool :=
  dtype_eq_type d type_int || dtype_eq_type d type_float
  || dtype_eq_type d type_complex.

(** ** Concrete objects, to run the methods on *)

Definition mic0 : OffloadDevice := mk_device 0 0.
Definition mic1 : OffloadDevice := mk_device 1 1.
Definition stream_a : OffloadStream := mk_stream 10 mic0.
Definition stream_b : OffloadStream := mk_stream 11 mic0.
Definition stream_c : OffloadStream := mk_stream 12 mic1.
Definition lib0 : library := mk_library 20.
Definition lib1 : library := mk_library 21.

Definition two_libraries (id : Z) : option library :=
  if id =? 0 then Some lib0 else if id =? 1 then Some lib1 else None.

(** A type-code table: [__abs__] of the source treats code 2 as complex
    data. *)
Definition three_type_codes (d : numpy_dtype) : result Z :=
  match d with
  | int64 => Ok 0
  | float64 => Ok 1
  | complex128 => Ok 2
  | _ => Raised (ValueError "unsupported data type")
  end.

Definition empty_world : world := mk_world [] 0.

(** An owner of shape (2, 3) of [int64] and its mirror. *)
Definition mirror_2x3 : ndarray := mk_ndarray 100 [2; 3] int64 order_C.
Definition owner_2x3 : OffloadArray :=
  mk_OffloadArray order_C int64 None mic0 stream_a 6 [2; 3] 48
    (Some mirror_2x3) lib0.

(** An owner of shape (3, 2) of [int64]. *)
Definition mirror_3x2 : ndarray := mk_ndarray 101 [3; 2] int64 order_C.
Definition owner_3x2 : OffloadArray :=
  mk_OffloadArray order_C int64 None mic0 stream_a 6 [3; 2] 48
    (Some mirror_3x2) lib0.

(** An owner of shape (2, 3) of [float64]. *)
Definition mirror_2x3_f : ndarray := mk_ndarray 102 [2; 3] float64 order_C.
Definition owner_2x3_f : OffloadArray :=
  mk_OffloadArray order_C float64 None mic0 stream_a 6 [2; 3] 48
    (Some mirror_2x3_f) lib0.

(** An owner of shape (4,) of [int32]. *)
Definition mirror_4_i32 : ndarray := mk_ndarray 103 [4] int32 order_C.
Definition owner_4_i32 : OffloadArray :=
  mk_OffloadArray order_C int32 None mic0 stream_a 4 [4] 16
    (Some mirror_4_i32) lib0.

(** A view of [owner_2x3], as [reshape] is meant to build it. *)
Definition view_6 : OffloadArray :=
  mk_OffloadArray order_C int64 (Some owner_2x3) mic0 stream_a 6 [6] 48
    (Some (mk_ndarray 100 [6] int64 order_C)) lib0.

(** A [bind] that allocates a device buffer for the host array, copies it
    over and returns the owner wrapping it. *)
Definition wrapping_bind (s : OffloadStream) (a : ndarray) : M world pyobj :=
  _buffer_allocate s a ;;;
  _buffer_update_on_target s (Some a) ;;;
  ret (PyHandle (mk_OffloadArray (arr_order a) (arr_dtype a) None
                   (stream_device s) s (product (arr_shape a)) (arr_shape a)
                   (itemsize (arr_dtype a) * product (arr_shape a)) (Some a)
                   lib0)).

(** What [owner_2x3 + owner_2x3] returns in [empty_world], and the world
    it leaves. *)
Definition sum_mirror : ndarray := mk_ndarray 0 [2; 3] int64 order_C.
Definition sum_2x3 : OffloadArray :=
  mk_OffloadArray order_C int64 None mic0 stream_a 6 [2; 3] 48
    (Some sum_mirror) lib0.
Definition world_after_add : world :=
  mk_world
    [buffer_allocate stream_a sum_mirror;
     invoke_kernel stream_a lib0 pymic_offload_array_add
       [PyInt 0; PyInt 6; PyArray mirror_2x3; PyInt 1;
        PyArray mirror_2x3; PyInt 1; PyArray sum_mirror; PyInt 1]]
    1.

(** The range assignment [owner_2x3[lb:ub] = src] as handed to the
    stream. *)
Definition setslice_call (lb ub : Z) (src : pyobj) : command :=
  invoke_kernel stream_a lib0 pymic_offload_array_setslice
    [PyInt 0; PyInt lb; PyInt ub; PyHandle owner_2x3; src].

(** ** Further predicates and objects *)

(** The shape the constructor stores: an integer becomes a 1-tuple. *)
Definition shape_dims (s : pyshape) : list Z :=
  match s with
  | ShapeInt n => [n]
  | ShapeSeq dims => dims
  end.

(** The right operand is neither a handle nor a host array: the operators
    and [__setslice__] treat it as a scalar. *)
Definition is_scalar (other : pyobj) : bool :=
  match other with
  | PyHandle _ | PyArray _ => false
  | _ => true
  end.


(** A device for which no library is loaded in [two_libraries], and a
    stream on it. *)
Definition mic2 : OffloadDevice := mk_device 2 2.
Definition stream_d : OffloadStream := mk_stream 13 mic2.

(** A handle built with [alloc_arr=False] and no base: it has no host
    mirror. *)
Definition bare_2x3 : OffloadArray :=
  mk_OffloadArray order_C int64 None mic0 stream_a 6 [2; 3] 48 None lib0.


(** The fill of [owner_2x3] with [value] as handed to the stream. *)
Definition fill_call (value : pyobj) : command :=
  invoke_kernel stream_a lib0 pymic_offload_array_fill
    [PyInt 0; PyInt 6; PyHandle owner_2x3; value].

Section OffloadArrayClass.

(** [_misc._map_data_types] is not in this file of the repository: it maps
    a dtype to the type code of the native library, or raises. *)
Variable map_data_types : numpy_dtype -> result Z.

(** The module-level dictionary [_offload_libraries], filled when the
    module is imported: device id to loaded library. *)
Variable _offload_libraries : Z -> option library.

(** [OffloadStream.bind] is not in this file of the repository: it wraps a
    host array for use on the device and returns the wrapping object. *)
Variable bind : OffloadStream -> ndarray -> M world pyobj.

Definition assert_not_None {S A} (v : option A) : M S A :=
  match v with
  | Some a => ret a
  | None => raise AssertionError
  end.

Definition __init__ (shape0 : pyshape) (dtype0 : numpy_dtype)
  (order0 : storage_order) (alloc_arr : bool) (base0 : option OffloadArray)
  (device0 : option OffloadDevice) (stream0 : option OffloadStream)
  : M world OffloadArray :=
  device1 <- assert_not_None device0 ;;
  stream1 <- assert_not_None stream0 ;;
  let '(size1, shape1) :=
    match shape0 with
    | ShapeSeq dims => (product dims, dims)
    | ShapeInt n => (n, [n])
    end in
  let nbytes1 := itemsize dtype0 * size1 in
  array1 <-
    match base0 with
    | Some b =>
        match array b with
        | Some a => a' <- lift (ndarray_reshape a shape1) ;; ret (Some a')
        | None =>
            raise (AttributeError
                     "'NoneType' object has no attribute 'reshape'")
        end
    | None =>
        if alloc_arr
        then a <- numpy_empty shape1 dtype0 order0 ;;
             _buffer_allocate stream1 a ;;;
             ret (Some a)
        else ret None
    end ;;
  match _offload_libraries (device_id device1) with
  | Some lib =>
      ret (mk_OffloadArray order0 dtype0 base0 device1 stream1 size1 shape1
             nbytes1 array1 lib)
  | None => raise (KeyError (device_id device1))
  end.

Definition __del__ (self : OffloadArray) : M world pyobj :=
  match base self with
  | None => _buffer_release (stream self) (array self) ;;; ret PyNone
  | Some _ => ret PyNone
  end.

Definition __hash__ (self : OffloadArray) : M world pyobj :=
  raise (TypeError "An OffloadArray is not hashable.").

Definition __len__ (self : OffloadArray) : Z :=
  match shape self with
  | d :: _ => d
  | [] => 1
  end.

Definition update_device (self : OffloadArray) : M world pyobj :=
  trace (_buffer_update_on_target (stream self) (array self) ;;;
         ret PyNone).

Definition update_host (self : OffloadArray) : M world pyobj :=
  trace (_buffer_update_on_host (stream self) (array self) ;;;
         ret (PyHandle self)).

(** [assign_stream] assigns an attribute of [self]: its state is the
    receiver together with the world. *)
Definition get_self : M (OffloadArray * world) OffloadArray :=
  fun s => (Ok (fst s), s).

Definition with_stream (self : OffloadArray) (s : OffloadStream)
  : OffloadArray :=
  mk_OffloadArray (order self) (dtype self) (base self) (device self) s
    (size self) (shape self) (nbytes self) (array self) (_library self).

Definition setattr_stream (s : OffloadStream)
  : M (OffloadArray * world) pyobj :=
  fun st => (Ok PyNone, (with_stream (fst st) s, snd st)).

Definition assign_stream (stream0 : OffloadStream)
  : M (OffloadArray * world) pyobj :=
  self <- get_self ;;
  if negb (device_is (get_device stream0) (device self))
  then raise (ValueError
                "Cannot assign a stream from different device ({0} != {1})")
  else setattr_stream stream0 ;;; ret PyNone.

(** The bodies of [__add__], [__sub__], [__mul__] and [__pow__] differ in
    the entry point they invoke and in the text of the shape error only
    ([__pow__] builds it by concatenation; it is kept as a template
    too). *)
Definition binary_operator (entry : kernel) (shape_msg : string)
  (self : OffloadArray) (other : pyobj) : M world pyobj :=
  dt <- lift (map_data_types (dtype self)) ;;
  let n := size self in
  let x := py_of_array (array self) in
  let incx := 1 in
  operand <-
    match other with
    | PyHandle o =>
        s1 <- array_shape (array self) ;;
        s2 <- array_shape (array o) ;;
        if negb (if list_eq_dec Z.eq_dec s1 s2 then true else false)
        then raise (ValueError shape_msg)
        else if negb (dtype_eqb (dtype self) (dtype o))
        then raise (ValueError "Data types do not match: {0} != {1}")
        else ret (py_of_array (array o), 1, 1)
    | PyArray a =>
        s1 <- array_shape (array self) ;;
        if negb (if list_eq_dec Z.eq_dec s1 (arr_shape a) then true else false)
        then raise (ValueError shape_msg)
        else if negb (dtype_eqb (dtype self) (arr_dtype a))
        then raise (ValueError "Data types do not match: {0} != {1}")
        else ret (other, 1, 1)
    | _ =>
        if negb (dtype_eq_type (dtype self) (type_of other))
        then raise (ValueError "Data types do not match: {0} != {1}")
        else ret (other, 0, 1)
    end ;;
  let '(y, incy, incr) := operand in
  result <- __init__ (ShapeSeq (shape self)) (dtype self) order_C true None
              (Some (device self)) (Some (stream self)) ;;
  invoke (stream self) (_library self) entry
    [PyInt dt; PyInt n; x; PyInt incx; y; PyInt incy;
     py_of_array (array result); PyInt incr] ;;;
  ret (PyHandle result).

Definition __add__ : OffloadArray -> pyobj -> M world pyobj :=
  binary_operator pymic_offload_array_add
    "shapes of the arrays need to match: {0} != {1}".

Definition __sub__ : OffloadArray -> pyobj -> M world pyobj :=
  binary_operator pymic_offload_array_sub
    "shapes of the arrays need to match: {0} != {1}".

Definition __mul__ : OffloadArray -> pyobj -> M world pyobj :=
  binary_operator pymic_offload_array_mul
    "shapes of the arrays need to match: {0} != {1}".

Definition __pow__ : OffloadArray -> pyobj -> M world pyobj :=
  binary_operator pymic_offload_array_pow
    "shapes of the arrays need to match ({0} != {1})".

Definition fill (self : OffloadArray) (value : pyobj) : M world pyobj :=
  if negb (dtype_eq_type (dtype self) (type_of value))
  then raise (ValueError "Data type do not match: {0} != {1}")
  else
    dt <- lift (map_data_types (dtype self)) ;;
    let n := size self in
    let x := PyHandle self in
    invoke (stream self) (_library self) pymic_offload_array_fill
      [PyInt dt; PyInt n; x; value] ;;;
    ret (PyHandle self).

Definition is_None (v : pyobj) : bool :=
  match v with
  | PyNone => true
  | _ => false
  end.

Definition zero (self : OffloadArray) (zero_value : pyobj) : M world pyobj :=
  zero_value1 <-
    (if is_None zero_value
     then
       if dtype_eq_type (dtype self) type_int then ret (PyInt 0)
       else if dtype_eq_type (dtype self) type_float
       then ret (PyFloat float_0_0)
       else if dtype_eq_type (dtype self) type_complex
       then ret (PyComplex float_0_0 float_0_0)
       else raise (ValueError
                     "Do not know representation of zero for type {0}")
     else ret zero_value) ;;
  fill self zero_value1.

(** In the last branch the source formats the name [dtype], which is bound
    neither in the method nor in the module: evaluating it raises
    [NameError] before the [ValueError] is built. *)
Definition one (self : OffloadArray) (one_value : pyobj) : M world pyobj :=
  one_value1 <-
    (if is_None one_value
     then
       if dtype_eq_type (dtype self) type_int then ret (PyInt 1)
       else if dtype_eq_type (dtype self) type_float
       then ret (PyFloat float_1_0)
       else if dtype_eq_type (dtype self) type_complex
       then ret (PyComplex float_1_0 float_0_0)
       else raise (NameError "dtype")
     else ret one_value) ;;
  fill self one_value1.

(** In [reshape], [shape] is the tuple of positional arguments (or the
    tuple made of the first one), so the loop over it does not raise the
    [TypeError] the source guards against.  The constructor is called
    without [stream]. *)
Definition reshape (self : OffloadArray) (args : reshape_args)
  : M world pyobj :=
  let shape1 := args_shape args in
  let size1 := product shape1 in
  if negb (size1 =? size self)
  then raise (ValueError "total size of reshaped array must be unchanged")
  else
    view <- __init__ (ShapeSeq shape1) (dtype self) (order self) false
              (Some self) (Some (device self)) None ;;
    ret (PyHandle view).

Definition ravel (self : OffloadArray) : M world pyobj :=
  reshape self (ArgIntegers (size self) []).

Definition __setslice__ (self : OffloadArray) (i j : Z) (sequence : pyobj)
  : M world pyobj :=
  let lb := Z.min i (size self) in
  let ub := Z.min j (size self) in
  dt <- lift (map_data_types (dtype self)) ;;
  match sequence with
  | PyHandle _ =>
      invoke (stream self) (_library self) pymic_offload_array_setslice
        [PyInt dt; PyInt lb; PyInt ub; PyHandle self; sequence] ;;;
      ret PyNone
  | PyArray a =>
      offl_sequence <- bind (stream self) a ;;
      invoke (stream self) (_library self) pymic_offload_array_setslice
        [PyInt dt; PyInt lb; PyInt ub; PyHandle self; offl_sequence] ;;;
      ret PyNone
  | _ =>
      fill self sequence ;;;
      ret PyNone
  end.

Definition entry_of (op : binop) : kernel :=
  match op with
  | op_add => pymic_offload_array_add
  | op_sub => pymic_offload_array_sub
  | op_mul => pymic_offload_array_mul
  | op_pow => pymic_offload_array_pow
  end.

Definition shape_mismatch_text (op : binop) : string :=
  match op with
  | op_pow => "shapes of the arrays need to match ({0} != {1})"
  | _ => "shapes of the arrays need to match: {0} != {1}"
  end.

Definition type_mismatch_text : string :=
  "Data types do not match: {0} != {1}".

Definition apply_binop (op : binop) : OffloadArray -> pyobj -> M world pyobj :=
  match op with
  | op_add => __add__
  | op_sub => __sub__
  | op_mul => __mul__
  | op_pow => __pow__
  end.

(** Calling a method on what a method returned: [r.update_host()] and
    [r.update_device()] for an object [r]. *)
Definition call_update_host (r : pyobj) : M world pyobj :=
  match r with
  | PyHandle h => update_host h
  | PyNone =>
      raise (AttributeError
               "'NoneType' object has no attribute 'update_host'")
  | _ => raise (AttributeError "object has no attribute 'update_host'")
  end.

Definition call_update_device (r : pyobj) : M world pyobj :=
  match r with
  | PyHandle h => update_device h
  | PyNone =>
      raise (AttributeError
               "'NoneType' object has no attribute 'update_device'")
  | _ => raise (AttributeError "object has no attribute 'update_device'")
  end.

(** ** Properties *)

Ltac run :=
  unfold mbind, ret, raise, lift, enqueue, trace,
    _buffer_allocate, _buffer_release, _buffer_update_on_target,
    _buffer_update_on_host, invoke, assert_not_None in *;
  simpl in *.

(** Case analysis on the scrutinee of the first [match] of a hypothesis,
    dropping the branches in which the hypothesis is absurd. *)
Ltac break_hyp H :=
  match type of H with
  | context [match ?x with _ => _ end] =>
      lazymatch x with
      | context [match _ with _ => _ end] => fail
      | _ =>
          let E := fresh "E" in
          destruct x eqn:E; simpl in H; try discriminate H
      end
  end.

Lemma product_singleton (n : Z) : product [n] = n.
Proof. unfold product; simpl. now destruct n. Qed.

Lemma valid_dims_not_negative (dims : list Z) :
  forallb (fun d => 0 <? d) dims = true ->
  existsb (fun n => n <? 0) dims = false.
Proof.
  induction dims as [|d dims IH]; simpl; intros H; [reflexivity|].
  apply andb_prop in H as [Hd Hrest].
  apply Z.ltb_lt in Hd.
  rewrite (IH Hrest), orb_false_r.
  apply Z.ltb_ge. lia.
Qed.

(** Whatever the arguments, a handle the constructor returns has the size
    and the byte size of its shape. *)
Lemma init_returns_consistent shape0 dt ord alloc b dev st w h w' :
  __init__ shape0 dt ord alloc b dev st w = (Ok h, w') ->
  size h = product (shape h) /\ nbytes h = itemsize dt * size h /\
  dtype h = dt /\ base h = b.
Proof.
  unfold __init__, numpy_empty. run. intros H.
  repeat break_hyp H.
  all: injection H as <- _; simpl; rewrite ?product_singleton; auto.
Qed.


(** C7: destroying a handle hands exactly one command to its stream, the
    release of the buffer of its host mirror, when the handle is an owner
    ([base is None]), and no command at all when it is a view. *)
Theorem del_releases_iff_owner (self : OffloadArray) (w : world) :
  __del__ self w =
  (Ok PyNone,
   mk_world
     (queue w ++
      (if is_owner self
       then [buffer_release (stream self) (array self)]
       else []))
     (next_data w)).
Proof.
  unfold __del__, is_owner. destruct (base self); run.
  - rewrite app_nil_r. now destruct w.
  - reflexivity.
Qed.

(** C8: [assign_stream] raises the device-mismatch [ValueError] and leaves
    the handle, its stream included, and the world as they were when the
    new stream's device is not the handle's device; otherwise it sets the
    handle's stream and nothing else: the host mirror, the device and the
    base are the same and no command is handed to any stream. *)
Theorem assign_stream_same_device_only
  (h : OffloadArray) (s : OffloadStream) (w : world) :
  assign_stream s (h, w) =
  (if device_is (get_device s) (device h)
   then (Ok PyNone, (with_stream h s, w))
   else (Raised (ValueError
           "Cannot assign a stream from different device ({0} != {1})"),
         (h, w))) /\
  stream (with_stream h s) = s /\
  array (with_stream h s) = array h /\
  device (with_stream h s) = device h /\
  base (with_stream h s) = base h /\
  shape (with_stream h s) = shape h /\
  dtype (with_stream h s) = dtype h.
Proof.
  unfold assign_stream, get_self, setattr_stream. run.
  destruct (device_is (get_device s) (device h)); simpl; auto 10.
Qed.

(** C10: [update_device] returns [None] and [update_host] returns the
    handle itself, so [h.update_host().update_device()] runs while
    [h.update_device().update_host()] raises on [None]. *)
Theorem update_device_returns_None (h : OffloadArray) (w : world) :
  fst (update_device h w) = Ok PyNone /\
  fst (update_host h w) = Ok (PyHandle h) /\
  fst ((r <- update_host h ;; call_update_device r) w) = Ok PyNone /\
  fst ((r <- update_device h ;; call_update_host r) w) =
    Raised (AttributeError
              "'NoneType' object has no attribute 'update_host'").
Proof.
  unfold update_device, update_host, call_update_device, call_update_host,
    update_device.
  run. auto.
Qed.

(** C6: when the product of the new shape differs from [h.size],
    [reshape] raises [ValueError] with the text "total size of reshaped
    array must be unchanged"; no constructor runs and the world is the one
    before the call. *)
Theorem reshape_size_mismatch (self : OffloadArray) (args : reshape_args)
  (w : world) :
  product (args_shape args) <> size self ->
  reshape self args w =
  (Raised (ValueError "total size of reshaped array must be unchanged"), w).
Proof.
  intros Hne. unfold reshape.
  destruct (Z.eqb_spec (product (args_shape args)) (size self)) as [E|_];
    [contradiction|].
  reflexivity.
Qed.

(** With asserts enabled, [reshape] never returns: when the sizes agree
    the constructor is entered without a stream and its second assertion
    fails, before anything is allocated. *)
Lemma reshape_same_size_raises (self : OffloadArray) (args : reshape_args)
  (w : world) :
  product (args_shape args) = size self ->
  reshape self args w = (Raised AssertionError, w).
Proof.
  intros E. unfold reshape. rewrite (proj2 (Z.eqb_eq _ _) E). reflexivity.
Qed.

Lemma reshape_never_returns (self : OffloadArray) (args : reshape_args)
  (w : world) :
  exists e, reshape self args w = (Raised e, w).
Proof.
  unfold reshape.
  destruct (product (args_shape args) =? size self); eexists; reflexivity.
Qed.

Lemma has_mirror_array (h : OffloadArray) :
  has_mirror h = true ->
  exists a, array h = Some a /\ arr_shape a = shape h.
Proof.
  unfold has_mirror. destruct (array h) as [a|]; [|discriminate].
  destruct (list_eq_dec Z.eq_dec (arr_shape a) (shape h)); [|discriminate].
  eauto.
Qed.

Lemma dtype_eqb_eq (a b : numpy_dtype) : dtype_eqb a b = true <-> a = b.
Proof.
  split; [destruct a, b; simpl; congruence | intros ->; now destruct b].
Qed.

Lemma binary_operator_mismatch entry msg self other w dt :
  map_data_types (dtype self) = Ok dt ->
  has_mirror self = true ->
  array_like other = true ->
  (shape self <> operand_shape other ->
   binary_operator entry msg self other w = (Raised (ValueError msg), w)) /\
  (shape self = operand_shape other ->
   operand_dtype other <> Some (dtype self) ->
   binary_operator entry msg self other w =
   (Raised (ValueError "Data types do not match: {0} != {1}"), w)).
Proof.
  intros Hdt Hself Hother.
  apply has_mirror_array in Hself as (a & Ha & Hshape).
  unfold binary_operator, array_shape. run. rewrite Hdt, Ha. simpl.
  destruct other as [| | | | | | |b|o]; try discriminate Hother; simpl in *.
  - rewrite Hshape.
    destruct (list_eq_dec Z.eq_dec (shape self) (arr_shape b)) as [E|N];
      simpl; split; intros H1; try contradiction; try reflexivity.
    intros H2.
    destruct (dtype_eqb (dtype self) (arr_dtype b)) eqn:Eq; [|reflexivity].
    apply dtype_eqb_eq in Eq. congruence.
  - apply has_mirror_array in Hother as (b & Hb & Hshapeb).
    rewrite Hb. simpl. rewrite Hshape, Hshapeb.
    destruct (list_eq_dec Z.eq_dec (shape self) (shape o)) as [E|N];
      simpl; split; intros H1; try contradiction; try reflexivity.
    intros H2.
    destruct (dtype_eqb (dtype self) (dtype o)) eqn:Eq; [|reflexivity].
    apply dtype_eqb_eq in Eq. congruence.
Qed.

(** C2: for each of add, subtract, multiply and power, a handle [self]
    with its host mirror and a native type code, and a right operand that
    is a handle (with its mirror) or a foreign host array: when the shapes
    differ the call raises the shape-mismatch [ValueError], and when the
    shapes agree and the element types differ it raises the type-mismatch
    [ValueError]; in both cases the world after the call is the world
    before it: no host memory was taken for a result, no buffer allocated
    and no kernel handed to a stream. *)
Theorem binop_mismatch_raises_before_dispatch op self other w dt :
  map_data_types (dtype self) = Ok dt ->
  has_mirror self = true ->
  array_like other = true ->
  (shape self <> operand_shape other ->
   apply_binop op self other w =
   (Raised (ValueError (shape_mismatch_text op)), w)) /\
  (shape self = operand_shape other ->
   operand_dtype other <> Some (dtype self) ->
   apply_binop op self other w = (Raised (ValueError type_mismatch_text), w)).
Proof.
  intros Hdt Hself Hother.
  destruct op; simpl;
    apply (binary_operator_mismatch _ _ _ _ _ _ Hdt Hself Hother).
Qed.

Lemma binary_operator_dispatch entry msg self other w r w' :
  binary_operator entry msg self other w = (Ok r, w') ->
  exists dt result ra,
    r = PyHandle result /\ array result = Some ra /\
    map_data_types (dtype self) = Ok dt /\
    queue w' =
    queue w ++
    [buffer_allocate (stream self) ra;
     invoke_kernel (stream self) (_library self) entry
       [PyInt dt; PyInt (size self); py_of_array (array self); PyInt 1;
        right_operand other; PyInt (right_stride other); PyArray ra;
        PyInt 1]].
Proof.
  unfold binary_operator, __init__, numpy_empty, array_shape. run. intros H.
  repeat break_hyp H.
  all: injection H as <- <-; simpl.
  all: repeat match goal with
         | E : (_, _) = (_, _) |- _ => injection E as; subst
         | E : Ok _ = Ok _ |- _ => injection E as; subst
         end.
  all: eexists _, _, _; repeat split; try reflexivity; simpl.
  all: repeat match goal with
         | E : array ?h = Some _ |- context [array ?h] => rewrite E
         end.
  all: rewrite <- app_assoc; reflexivity.
Qed.

(** C3: whenever add, subtract, multiply or power returns, the kernel
    call it handed to the stream has left stride 1, result stride 1 and
    right stride 1 for a handle or a foreign host array, 0 for a scalar;
    the left operand is [self]'s host mirror, the result operand the host
    mirror of the returned handle, whose buffer was allocated just
    before. *)
Theorem binop_dispatch_strides op self other w r w' :
  apply_binop op self other w = (Ok r, w') ->
  exists dt result ra,
    r = PyHandle result /\ array result = Some ra /\
    map_data_types (dtype self) = Ok dt /\
    queue w' =
    queue w ++
    [buffer_allocate (stream self) ra;
     invoke_kernel (stream self) (_library self) (entry_of op)
       [PyInt dt; PyInt (size self); py_of_array (array self); PyInt 1;
        right_operand other; PyInt (right_stride other); PyArray ra;
        PyInt 1]].
Proof.
  destruct op; simpl; apply binary_operator_dispatch.
Qed.

(** C4, as amended: for a handle whose element type has a native type
    code and all integer bounds [i], [j], [__setslice__] lowers each bound
    to [size] when it exceeds [size] and passes any smaller bound, a
    negative one included, on as it is.  For a handle as source it hands
    the range-assignment kernel to the stream; for a foreign host array it
    first binds the array through the stream and hands the kernel the
    bound object; for anything else it runs [fill] with the source. *)
Theorem setslice_upper_clamp_and_dispatch self i j sequence w dt :
  map_data_types (dtype self) = Ok dt ->
  let lb := Z.min i (size self) in
  let ub := Z.min j (size self) in
  let assign (src : pyobj) :=
    invoke_kernel (stream self) (_library self) pymic_offload_array_setslice
      [PyInt dt; PyInt lb; PyInt ub; PyHandle self; src] in
  __setslice__ self i j sequence w =
  match sequence with
  | PyHandle _ =>
      (Ok PyNone, mk_world (queue w ++ [assign sequence]) (next_data w))
  | PyArray a =>
      match bind (stream self) a w with
      | (Ok bound, w1) =>
          (Ok PyNone, mk_world (queue w1 ++ [assign bound]) (next_data w1))
      | (Raised e, w1) => (Raised e, w1)
      end
  | _ =>
      match fill self sequence w with
      | (Ok _, w1) => (Ok PyNone, w1)
      | (Raised e, w1) => (Raised e, w1)
      end
  end /\
  (size self <= i -> lb = size self) /\ (i <= size self -> lb = i) /\
  (size self <= j -> ub = size self) /\ (j <= size self -> ub = j).
Proof.
  intros Hdt lb ub assign. split; [|subst lb ub; lia].
  unfold __setslice__. run. rewrite Hdt.
  destruct sequence; reflexivity.
Qed.

Lemma known_identity_cases (d : numpy_dtype) :
  known_identity d = true -> d = int64 \/ d = float64 \/ d = complex128.
Proof. destruct d; simpl; intros H; try discriminate H; auto. Qed.

(** [zero()] and [one()] on [int64], [float64] and [complex128]: the
    fill kernel is handed 0, 0.0, 0+0j, respectively 1, 1.0, 1+0j. *)
Lemma zero_one_fill_identity self w dt :
  map_data_types (dtype self) = Ok dt ->
  let filled (v : pyobj) :=
    (Ok (PyHandle self),
     mk_world
       (queue w ++
        [invoke_kernel (stream self) (_library self) pymic_offload_array_fill
           [PyInt dt; PyInt (size self); PyHandle self; v]])
       (next_data w)) in
  (dtype self = int64 ->
   zero self PyNone w = filled (PyInt 0) /\
   one self PyNone w = filled (PyInt 1)) /\
  (dtype self = float64 ->
   zero self PyNone w = filled (PyFloat float_0_0) /\
   one self PyNone w = filled (PyFloat float_1_0)) /\
  (dtype self = complex128 ->
   zero self PyNone w = filled (PyComplex float_0_0 float_0_0) /\
   one self PyNone w = filled (PyComplex float_1_0 float_0_0)).
Proof.
  intros Hdt filled. subst filled.
  repeat split; unfold zero, one, fill; run;
    rewrite H in *; simpl; rewrite Hdt; reflexivity.
Qed.

(** [zero()] on any other element type raises the [ValueError] of the
    source. *)
Lemma zero_unknown_raises_ValueError self w :
  known_identity (dtype self) = false ->
  zero self PyNone w =
  (Raised (ValueError "Do not know representation of zero for type {0}"), w).
Proof.
  unfold known_identity, zero. run. intros H.
  apply orb_false_elim in H as [H Hc]. apply orb_false_elim in H as [Hi Hf].
  now rewrite Hi, Hf, Hc.
Qed.

(** [one()] on any other element type raises [NameError], not the
    [ValueError] its sibling [zero] raises. *)
Lemma one_unknown_raises_NameError self w :
  known_identity (dtype self) = false ->
  one self PyNone w = (Raised (NameError "dtype"), w).
Proof.
  unfold known_identity, one. run. intros H.
  apply orb_false_elim in H as [H Hc]. apply orb_false_elim in H as [Hi Hf].
  now rewrite Hi, Hf, Hc.
Qed.

(** ** The constructor *)

(** [__init__]: without a device or without a stream the constructor
    raises [AssertionError] before it computes or allocates anything,
    whatever the other arguments. *)
Theorem init_requires_device_and_stream shape0 dt ord alloc b dev st w :
  __init__ shape0 dt ord alloc b None st w = (Raised AssertionError, w) /\
  __init__ shape0 dt ord alloc b dev None w = (Raised AssertionError, w).
Proof. split; [reflexivity | destruct dev; reflexivity]. Qed.

Lemma valid_shape_dims_not_negative (shape0 : pyshape) :
  valid_shape shape0 = true ->
  existsb (fun n => n <? 0) (shape_dims shape0) = false.
Proof.
  destruct shape0 as [n|dims]; simpl; intros H.
  - rewrite orb_false_r. apply Z.ltb_ge. apply Z.ltb_lt in H. lia.
  - now apply valid_dims_not_negative.
Qed.

(** The run of the constructor on the owner path, in full. *)
Lemma init_owner_run shape0 dt ord dev st w :
  existsb (fun n => n <? 0) (shape_dims shape0) = false ->
  __init__ shape0 dt ord true None (Some dev) (Some st) w =
  let mirror := mk_ndarray (next_data w) (shape_dims shape0) dt ord in
  let w1 :=
    mk_world (queue w ++ [buffer_allocate st mirror])
      (Datatypes.S (next_data w)) in
  match _offload_libraries (device_id dev) with
  | Some lib =>
      (Ok (mk_OffloadArray ord dt None dev st (product (shape_dims shape0))
             (shape_dims shape0)
             (itemsize dt * product (shape_dims shape0)) (Some mirror) lib),
       w1)
  | None => (Raised (KeyError (device_id dev)), w1)
  end.
Proof.
  intros Hdims. unfold __init__, numpy_empty. run.
  destruct shape0 as [n|dims]; simpl in *; rewrite Hdims; simpl;
    rewrite ?product_singleton;
    destruct (_offload_libraries (device_id dev)); reflexivity.
Qed.

(** [__init__], owner path: whenever the constructor returns for a call
    without base and with [alloc_arr] set, it has taken one new host
    memory block for the mirror, of the shape, dtype and order asked for,
    and handed the stream exactly one command, the allocation of the
    buffer of that mirror; the handle is an owner bound to the device and
    stream given, its mirror has the handle's shape, and its library is
    the one loaded for the device. *)
Theorem init_owner_allocates_once shape0 dt ord dev st w h w' :
  __init__ shape0 dt ord true None (Some dev) (Some st) w = (Ok h, w') ->
  exists mirror,
    w' =
    mk_world (queue w ++ [buffer_allocate st mirror])
      (Datatypes.S (next_data w)) /\
    mirror = mk_ndarray (next_data w) (shape_dims shape0) dt ord /\
    array h = Some mirror /\ has_mirror h = true /\ is_owner h = true /\
    device h = dev /\ stream h = st /\ order h = ord /\
    _offload_libraries (device_id dev) = Some (_library h).
Proof.
  intros H.
  destruct (existsb (fun n => n <? 0) (shape_dims shape0)) eqn:Hdims.
  - revert H. unfold __init__, numpy_empty. run.
    destruct shape0; simpl in *; rewrite Hdims; discriminate.
  - rewrite (init_owner_run _ dt ord dev st w Hdims) in H. simpl in H.
    destruct (_offload_libraries (device_id dev)) as [lib|];
      [|discriminate H].
    injection H as <- <-. eexists. split; [reflexivity|].
    repeat split; simpl.
    unfold has_mirror; simpl.
    now destruct (list_eq_dec Z.eq_dec (shape_dims shape0) (shape_dims shape0)).
Qed.

(** [__init__] with [alloc_arr=False] and no base: nothing is allocated
    and nothing is handed to the stream, the handle has no host mirror,
    and the shape is not checked at all: any dimensions are accepted, a
    negative size included. *)
Theorem init_without_alloc_checks_nothing shape0 dt ord dev st w lib :
  _offload_libraries (device_id dev) = Some lib ->
  exists h,
    __init__ shape0 dt ord false None (Some dev) (Some st) w = (Ok h, w) /\
    array h = None /\ has_mirror h = false /\
    shape h = shape_dims shape0 /\ size h = product (shape_dims shape0) /\
    nbytes h = itemsize dt * product (shape_dims shape0).
Proof.
  intros Hlib. unfold __init__. run.
  destruct shape0 as [n|dims]; simpl; rewrite Hlib; eexists;
    (split; [reflexivity|]); simpl; rewrite ?product_singleton; auto 10.
Qed.

(** [__init__] looks the library of the device up last: whenever a call
    without base raises [KeyError], the key is the id of the device, no
    library is loaded for it, and on the allocating path the buffer of
    the mirror has been allocated by then (without [alloc_arr] the world
    is the one before the call). *)
Theorem init_missing_library_raises_last shape0 dt ord alloc dev st w k w' :
  __init__ shape0 dt ord alloc None (Some dev) (Some st) w =
    (Raised (KeyError k), w') ->
  k = device_id dev /\
  _offload_libraries (device_id dev) = None /\
  w' =
  (if alloc
   then mk_world
          (queue w ++
           [buffer_allocate st
              (mk_ndarray (next_data w) (shape_dims shape0) dt ord)])
          (Datatypes.S (next_data w))
   else w).
Proof.
  unfold __init__, numpy_empty. run. intros H.
  repeat break_hyp H.
  all: injection H as <- <-; auto.
Qed.



(** No call of the constructor with a base whose host mirror is held in
    C order hands anything to a stream or takes host memory, and
    destroying the handle it returns does not either. *)
Theorem view_never_touches_stream shape0 dt ord alloc b a dev st w h w' :
  array b = Some a ->
  arr_order a = order_C ->
  __init__ shape0 dt ord alloc (Some b) dev st w = (Ok h, w') ->
  w' = w /\ __del__ h w' = (Ok PyNone, w).
Proof.
  intros Ha Horder H.
  assert (Hbase : base h = Some b)
    by (now destruct (init_returns_consistent _ _ _ _ _ _ _ _ _ _ H)
          as (_ & _ & _ & Hb)).
  assert (Hw : w' = w).
  { revert H. unfold __init__. run. intros H. repeat break_hyp H.
    all: now injection H as _ <-. }
  subst w'. split; [reflexivity|].
  unfold __del__. now rewrite Hbase.
Qed.

(** An owner built and then destroyed: whenever the two calls run to
    the end, the stream has received the allocation of the buffer of the
    new mirror and then the release of the buffer of that same mirror,
    and nothing else. *)
Theorem owner_lifecycle_allocate_release shape0 dt ord dev st w r w' :
  (h <- __init__ shape0 dt ord true None (Some dev) (Some st) ;; __del__ h) w
    = (Ok r, w') ->
  r = PyNone /\
  w' =
  mk_world
    (queue w ++
     [buffer_allocate st
        (mk_ndarray (next_data w) (shape_dims shape0) dt ord);
      buffer_release st
        (Some (mk_ndarray (next_data w) (shape_dims shape0) dt ord))])
    (Datatypes.S (next_data w)).
Proof.
  unfold mbind at 1.
  destruct (existsb (fun n => n <? 0) (shape_dims shape0)) eqn:Hdims.
  - unfold __init__, numpy_empty. run.
    destruct shape0; simpl in *; rewrite Hdims; discriminate.
  - rewrite (init_owner_run _ dt ord dev st w Hdims). simpl.
    destruct (_offload_libraries (device_id dev)); [|discriminate].
    unfold __del__. run. intros H. injection H as <- <-.
    now rewrite <- app_assoc.
Qed.

(** [__len__] of a handle the constructor returned: the integer itself for
    an integer shape, the leading dimension for a sequence, and 1 for the
    empty shape. *)
Theorem len_of_constructed shape0 dt ord alloc b dev st w h w' :
  __init__ shape0 dt ord alloc b dev st w = (Ok h, w') ->
  __len__ h =
  match shape0 with
  | ShapeInt n => n
  | ShapeSeq (d :: _) => d
  | ShapeSeq [] => 1
  end.
Proof.
  unfold __init__, numpy_empty. run. intros H.
  repeat break_hyp H.
  all: injection H as <- _; unfold __len__; simpl; reflexivity.
Qed.

(** ** [fill], [zero] and [one] *)

(** [fill]: when it returns, it returns the handle itself, the value had
    the handle's element type, and the stream has received exactly one
    command, the fill kernel over all [size] elements with the value as
    given; no host memory was taken. *)
Theorem fill_returns_self_one_kernel self value w r w' :
  fill self value w = (Ok r, w') ->
  r = PyHandle self /\
  dtype_eq_type (dtype self) (type_of value) = true /\
  exists dt,
    map_data_types (dtype self) = Ok dt /\
    w' =
    mk_world
      (queue w ++
       [invoke_kernel (stream self) (_library self) pymic_offload_array_fill
          [PyInt dt; PyInt (size self); PyHandle self; value]])
      (next_data w).
Proof.
  unfold fill. run. intros H. repeat break_hyp H.
  injection H as <- <-. apply negb_false_iff in E.
  repeat split; eauto.
Qed.

Lemma mbind_raised {S A B} (c : M S A) (k : A -> M S B) s e s' :
  (x <- c ;; k x) s = (Raised e, s') ->
  c s = (Raised e, s') \/
  exists a s1, c s = (Ok a, s1) /\ k a s1 = (Raised e, s').
Proof.
  unfold mbind. destruct (c s) as [[a|e1] s1]; intros H.
  - right. eauto.
  - left. injection H as <- <-. reflexivity.
Qed.

Lemma fill_failure self value w e w' :
  fill self value w = (Raised e, w') -> w' = w.
Proof.
  unfold fill. run. intros H. repeat break_hyp H.
  all: now injection H as _ <-.
Qed.

(** [fill], [zero] and [one] are all-or-nothing: when one of them raises,
    for whatever reason, nothing has been handed to the stream and no
    host memory has been taken. *)
Theorem fill_zero_one_failure_leaves_world self value w e w' :
  fill self value w = (Raised e, w') \/
  zero self value w = (Raised e, w') \/
  one self value w = (Raised e, w') ->
  w' = w.
Proof.
  intros [H | [H | H]]; [now apply fill_failure in H | |].
  all: apply mbind_raised in H as [H | (v & w1 & H1 & H2)].
  all: try (apply fill_failure in H2; subst w').
  all: match goal with
       | Hsel : _ ?w0 = _ |- _ = ?w0 =>
           revert Hsel; run;
           repeat match goal with
                  | |- context [if ?c then _ else _] => destruct c
                  end;
           intros Hsel; try discriminate Hsel;
           now injection Hsel as _ <-
       end.
Qed.

(** ** The binary operators *)

(** A scalar right operand whose type is not the handle's element type
    (an [int64] handle and a Python float, [None], a string, ...) makes
    every binary operator raise the type-mismatch [ValueError] with
    nothing allocated and nothing handed to the stream; the handle needs
    no host mirror for that. *)
Theorem binop_scalar_type_mismatch op self other w dt :
  map_data_types (dtype self) = Ok dt ->
  is_scalar other = true ->
  dtype_eq_type (dtype self) (type_of other) = false ->
  apply_binop op self other w = (Raised (ValueError type_mismatch_text), w).
Proof.
  intros Hdt Hscalar Htype.
  destruct op; simpl; unfold __add__, __sub__, __mul__, __pow__,
    binary_operator; run; rewrite Hdt;
    destruct other; try discriminate Hscalar; simpl in *;
    try rewrite Htype; reflexivity.
Qed.



Lemma binary_operator_failure entry msg self other w e w' lib :
  _offload_libraries (device_id (device self)) = Some lib ->
  binary_operator entry msg self other w = (Raised e, w') -> w' = w.
Proof.
  intros Hlib.
  unfold binary_operator, __init__, numpy_empty, array_shape. run.
  rewrite Hlib. intros H.
  repeat break_hyp H.
  all: try (now injection H as _ <-).
  all: repeat match goal with
         | E : (_, _) = (_, _) |- _ => injection E as; subst
         end; try discriminate; try (now injection H as _ <-).
Qed.

(** The binary operators are all-or-nothing on a device whose library is
    loaded: when one raises, for whatever reason (no type code, a missing
    mirror, a shape or type mismatch, a negative dimension), nothing has
    been allocated and nothing has been handed to the stream. *)
Theorem binop_failure_leaves_world op self other w e w' lib :
  _offload_libraries (device_id (device self)) = Some lib ->
  apply_binop op self other w = (Raised e, w') ->
  w' = w.
Proof.
  intros Hlib.
  destruct op; simpl; apply (binary_operator_failure _ _ _ _ _ _ _ _ Hlib).
Qed.

(** ** Streams *)

(** After [assign_stream] to another stream of the handle's device, the
    later transfers of the handle are handed to the new stream, and so is
    the release of an owner's buffer when the handle is destroyed; the
    host mirror they name is the one the handle had. *)
Theorem assign_stream_redirects_later_commands h s w :
  device_is (get_device s) (device h) = true ->
  exists h',
    assign_stream s (h, w) = (Ok PyNone, (h', w)) /\
    update_device h' w =
      (Ok PyNone,
       mk_world (queue w ++ [buffer_update_on_target s (array h)])
         (next_data w)) /\
    update_host h' w =
      (Ok (PyHandle h'),
       mk_world (queue w ++ [buffer_update_on_host s (array h)])
         (next_data w)) /\
    __del__ h' w =
      (Ok PyNone,
       if is_owner h
       then mk_world (queue w ++ [buffer_release s (array h)]) (next_data w)
       else w).
Proof.
  intros Hdev. exists (with_stream h s).
  unfold assign_stream, get_self, setattr_stream, update_device,
    update_host, __del__, is_owner. run.
  rewrite Hdev. simpl. repeat split.
  destruct (base h); reflexivity.
Qed.

(** ** Slice assignment *)

(** [__setslice__] with a scalar source ignores its bounds: whatever [i]
    and [j] are, the stream receives the fill kernel over all [size]
    elements of the handle. *)
Theorem setslice_scalar_ignores_bounds self i j value w dt :
  is_scalar value = true ->
  map_data_types (dtype self) = Ok dt ->
  dtype_eq_type (dtype self) (type_of value) = true ->
  __setslice__ self i j value w =
  (Ok PyNone,
   mk_world
     (queue w ++
      [invoke_kernel (stream self) (_library self) pymic_offload_array_fill
         [PyInt dt; PyInt (size self); PyHandle self; value]])
     (next_data w)).
Proof.
  intros Hscalar Hdt Htype.
  unfold __setslice__, fill. run. rewrite Hdt.
  destruct value; try discriminate Hscalar; simpl in *;
    try (unfold dtype_eq_type in Htype; simpl in Htype; discriminate Htype);
    rewrite Htype; simpl; rewrite ?Hdt; reflexivity.
Qed.

(** [__setslice__] looks the type code up first: when the lookup raises,
    that exception is what the caller gets, a foreign host array is not
    bound and nothing is handed to the stream. *)
Theorem setslice_no_type_code_raises_first self i j sequence w e :
  map_data_types (dtype self) = Raised e ->
  __setslice__ self i j sequence w = (Raised e, w).
Proof.
  intros Hdt. unfold __setslice__. run. now rewrite Hdt.
Qed.

(** A handle without host mirror cannot be the left operand of an
    operation with a handle or a host array: the operator raises
    [AttributeError] when it reads the shape of the missing mirror, with
    nothing allocated and nothing handed to the stream. *)
Theorem binop_without_mirror_raises op self other w dt :
  map_data_types (dtype self) = Ok dt ->
  array self = None ->
  is_scalar other = false ->
  apply_binop op self other w =
  (Raised (AttributeError "'NoneType' object has no attribute 'shape'"), w).
Proof.
  intros Hdt Hnone Harr.
  destruct op; simpl; unfold __add__, __sub__, __mul__, __pow__,
    binary_operator, array_shape; run; rewrite Hdt, Hnone;
    destruct other; try discriminate Harr; reflexivity.
Qed.

End OffloadArrayClass.

(** ** The methods on concrete handles *)

Lemma ravel_is_reshape_of_size libs (h : OffloadArray) :
  ravel libs h = reshape libs h (ArgIntegers (size h) []).
Proof. reflexivity. Qed.

(** C1: on the owner of shape (2, 3), whose size is 6, [reshape(3, 2)],
    [reshape((6,))] and [ravel()] all raise [AssertionError] and return no
    view: [reshape] calls the constructor without a stream, and the
    constructor asserts that the stream is not [None]. *)
Theorem reshape_returns_no_view :
  reshape two_libraries owner_2x3 (ArgIntegers 3 [2]) empty_world =
    (Raised AssertionError, empty_world) /\
  reshape two_libraries owner_2x3 (ArgSequence [6]) empty_world =
    (Raised AssertionError, empty_world) /\
  ravel two_libraries owner_2x3 empty_world =
    (Raised AssertionError, empty_world).
Proof. repeat split. Qed.

(** C5: on an owner of [int32], for which the source knows no identity,
    [one()] raises [NameError] for the unbound name [dtype], where
    [zero()] raises the [ValueError] about the unknown representation. *)
Theorem one_unsupported_raises_NameError :
  one three_type_codes owner_4_i32 PyNone empty_world =
    (Raised (NameError "dtype"), empty_world) /\
  zero three_type_codes owner_4_i32 PyNone empty_world =
    (Raised (ValueError "Do not know representation of zero for type {0}"),
     empty_world).
Proof. split; reflexivity. Qed.

(** C4, as stated, fails: [owner_2x3.__setslice__(-1, 9, view_6)] hands
    the kernel the bounds -1 and 6, not the bounds 0 and 6 that clamping
    to [0, size) gives. *)
Lemma setslice_negative_lower_bound_kept :
  __setslice__ three_type_codes wrapping_bind owner_2x3 (-1) 9
    (PyHandle view_6) empty_world =
    (Ok PyNone, mk_world [setslice_call (-1) 6 (PyHandle view_6)] 0) /\
  __setslice__ three_type_codes wrapping_bind owner_2x3 (-1) 9
    (PyHandle view_6) empty_world <>
    (Ok PyNone,
     mk_world
       [setslice_call (clamp 0 (size owner_2x3) (-1))
          (clamp 0 (size owner_2x3) 9) (PyHandle view_6)] 0).
Proof.
  split; [reflexivity|].
  intros H. vm_compute in H. discriminate H.
Qed.

Lemma setslice_upper_clamp_and_dispatch_witness :
  three_type_codes (dtype owner_2x3) = Ok 0 /\
  __setslice__ three_type_codes wrapping_bind owner_2x3 2 9
    (PyArray mirror_3x2) empty_world =
  (Ok PyNone,
   mk_world
     [buffer_allocate stream_a mirror_3x2;
      buffer_update_on_target stream_a (Some mirror_3x2);
      setslice_call 2 6
        (PyHandle (mk_OffloadArray order_C int64 None mic0 stream_a 6 [3; 2]
                     48 (Some mirror_3x2) lib0))]
     0).
Proof.
  split; [reflexivity|].
  exact (proj1 (setslice_upper_clamp_and_dispatch three_type_codes
                  wrapping_bind owner_2x3 2 9 (PyArray mirror_3x2)
                  empty_world 0 eq_refl)).
Defined.


Lemma reshape_size_mismatch_witness :
  product (args_shape (ArgIntegers 4 [2])) <> size owner_2x3 /\
  reshape two_libraries owner_2x3 (ArgIntegers 4 [2]) empty_world =
  (Raised (ValueError "total size of reshaped array must be unchanged"),
   empty_world).
Proof.
  assert (H : product (args_shape (ArgIntegers 4 [2])) <> size owner_2x3)
    by (vm_compute; discriminate).
  split; [exact H|].
  exact (reshape_size_mismatch two_libraries owner_2x3 (ArgIntegers 4 [2])
           empty_world H).
Defined.

Lemma binop_mismatch_raises_before_dispatch_witness :
  three_type_codes (dtype owner_2x3) = Ok 0 /\
  has_mirror owner_2x3 = true /\
  array_like (PyHandle owner_3x2) = true /\
  array_like (PyArray mirror_2x3_f) = true /\
  apply_binop three_type_codes two_libraries op_add owner_2x3
    (PyHandle owner_3x2) empty_world =
    (Raised (ValueError (shape_mismatch_text op_add)), empty_world) /\
  apply_binop three_type_codes two_libraries op_pow owner_2x3
    (PyArray mirror_2x3_f) empty_world =
    (Raised (ValueError type_mismatch_text), empty_world).
Proof.
  do 4 (split; [reflexivity|]).
  split.
  - apply (proj1 (binop_mismatch_raises_before_dispatch three_type_codes
                    two_libraries op_add owner_2x3 (PyHandle owner_3x2)
                    empty_world 0 eq_refl eq_refl eq_refl)).
    simpl. discriminate.
  - apply (proj2 (binop_mismatch_raises_before_dispatch three_type_codes
                    two_libraries op_pow owner_2x3 (PyArray mirror_2x3_f)
                    empty_world 0 eq_refl eq_refl eq_refl)).
    + reflexivity.
    + simpl. discriminate.
Defined.

Lemma binop_dispatch_strides_witness :
  apply_binop three_type_codes two_libraries op_add owner_2x3
    (PyHandle owner_2x3) empty_world = (Ok (PyHandle sum_2x3), world_after_add)
  /\
  exists dt result ra,
    PyHandle sum_2x3 = PyHandle result /\ array result = Some ra /\
    three_type_codes (dtype owner_2x3) = Ok dt /\
    queue world_after_add =
    queue empty_world ++
    [buffer_allocate (stream owner_2x3) ra;
     invoke_kernel (stream owner_2x3) (_library owner_2x3)
       (entry_of op_add)
       [PyInt dt; PyInt (size owner_2x3); py_of_array (array owner_2x3);
        PyInt 1; right_operand (PyHandle owner_2x3);
        PyInt (right_stride (PyHandle owner_2x3)); PyArray ra; PyInt 1]].
Proof.
  split; [reflexivity|].
  exact (binop_dispatch_strides three_type_codes two_libraries op_add
           owner_2x3 (PyHandle owner_2x3) empty_world (PyHandle sum_2x3)
           world_after_add eq_refl).
Defined.

(** A scalar right operand: [owner_2x3 ** 2] is dispatched with right
    stride 0. *)
Example pow_scalar_right_stride :
  snd (apply_binop three_type_codes two_libraries op_pow owner_2x3 (PyInt 2)
         empty_world) =
  mk_world
    [buffer_allocate stream_a sum_mirror;
     invoke_kernel stream_a lib0 pymic_offload_array_pow
       [PyInt 0; PyInt 6; PyArray mirror_2x3; PyInt 1; PyInt 2; PyInt 0;
        PyArray sum_mirror; PyInt 1]]
    1.
Proof. reflexivity. Qed.

(** The stream of a handle can be changed to another stream of its
    device, not to a stream of another device. *)
Example assign_stream_examples :
  assign_stream stream_b (owner_2x3, empty_world) =
    (Ok PyNone, (with_stream owner_2x3 stream_b, empty_world)) /\
  assign_stream stream_c (owner_2x3, empty_world) =
    (Raised (ValueError
       "Cannot assign a stream from different device ({0} != {1})"),
     (owner_2x3, empty_world)).
Proof. split; reflexivity. Qed.

(** Destroying the owner releases its buffer; destroying a view of it
    does not. *)
Example del_examples :
  queue (snd (__del__ owner_2x3 empty_world)) =
    [buffer_release stream_a (Some mirror_2x3)] /\
  queue (snd (__del__ view_6 empty_world)) = [].
Proof. split; reflexivity. Qed.

(** ** Further runs on concrete handles *)

Lemma init_owner_allocates_once_witness :
  __init__ two_libraries (ShapeSeq [2; 3]) int64 order_C true None
    (Some mic0) (Some stream_a) empty_world =
    (Ok sum_2x3, mk_world [buffer_allocate stream_a sum_mirror] 1) /\
  exists mirror,
    mk_world [buffer_allocate stream_a sum_mirror] 1 =
    mk_world (queue empty_world ++ [buffer_allocate stream_a mirror])
      (Datatypes.S (next_data empty_world)) /\
    mirror = sum_mirror /\
    array sum_2x3 = Some mirror /\ has_mirror sum_2x3 = true /\
    is_owner sum_2x3 = true /\
    device sum_2x3 = mic0 /\ stream sum_2x3 = stream_a /\
    order sum_2x3 = order_C /\
    two_libraries (device_id mic0) = Some (_library sum_2x3).
Proof.
  split; [reflexivity|].
  exact (init_owner_allocates_once two_libraries (ShapeSeq [2; 3]) int64
           order_C mic0 stream_a empty_world sum_2x3
           (mk_world [buffer_allocate stream_a sum_mirror] 1) eq_refl).
Defined.

Lemma init_without_alloc_checks_nothing_witness :
  two_libraries (device_id mic0) = Some lib0 /\
  exists h,
    __init__ two_libraries (ShapeSeq [-2; 3]) int64 order_C false None
      (Some mic0) (Some stream_a) empty_world = (Ok h, empty_world) /\
    array h = None /\ has_mirror h = false /\
    shape h = [-2; 3] /\ size h = -6 /\ nbytes h = -48.
Proof.
  split; [reflexivity|].
  exact (init_without_alloc_checks_nothing two_libraries (ShapeSeq [-2; 3])
           int64 order_C mic0 stream_a empty_world lib0 eq_refl).
Defined.

Lemma init_missing_library_raises_last_witness :
  __init__ two_libraries (ShapeInt 4) float64 order_F true None (Some mic2)
    (Some stream_d) empty_world =
    (Raised (KeyError 2),
     mk_world [buffer_allocate stream_d (mk_ndarray 0 [4] float64 order_F)]
       1) /\
  2 = device_id mic2 /\
  two_libraries (device_id mic2) = None /\
  mk_world [buffer_allocate stream_d (mk_ndarray 0 [4] float64 order_F)] 1 =
  mk_world
    (queue empty_world ++
     [buffer_allocate stream_d
        (mk_ndarray (next_data empty_world) (shape_dims (ShapeInt 4)) float64
           order_F)])
    (Datatypes.S (next_data empty_world)).
Proof.
  split; [reflexivity|].
  exact (init_missing_library_raises_last two_libraries (ShapeInt 4) float64
           order_F true mic2 stream_d empty_world 2
           (mk_world
              [buffer_allocate stream_d (mk_ndarray 0 [4] float64 order_F)] 1)
           eq_refl).
Defined.


Lemma view_never_touches_stream_witness :
  array owner_2x3 = Some mirror_2x3 /\
  arr_order mirror_2x3 = order_C /\
  __init__ two_libraries (ShapeSeq [6]) int64 order_C false (Some owner_2x3)
    (Some mic0) (Some stream_a) world_after_add = (Ok view_6, world_after_add)
  /\
  world_after_add = world_after_add /\
  __del__ view_6 world_after_add = (Ok PyNone, world_after_add).
Proof.
  do 3 (split; [reflexivity|]).
  exact (view_never_touches_stream two_libraries (ShapeSeq [6]) int64
           order_C false owner_2x3 mirror_2x3 (Some mic0) (Some stream_a)
           world_after_add view_6 world_after_add eq_refl eq_refl eq_refl).
Defined.

Lemma owner_lifecycle_allocate_release_witness :
  (h <- __init__ two_libraries (ShapeSeq [2; 3]) int64 order_C true None
          (Some mic0) (Some stream_a) ;;
   __del__ h) empty_world =
    (Ok PyNone,
     mk_world
       [buffer_allocate stream_a sum_mirror;
        buffer_release stream_a (Some sum_mirror)] 1) /\
  PyNone = PyNone /\
  mk_world
    [buffer_allocate stream_a sum_mirror;
     buffer_release stream_a (Some sum_mirror)] 1 =
  mk_world
    (queue empty_world ++
     [buffer_allocate stream_a
        (mk_ndarray (next_data empty_world) (shape_dims (ShapeSeq [2; 3]))
           int64 order_C);
      buffer_release stream_a
        (Some
           (mk_ndarray (next_data empty_world)
              (shape_dims (ShapeSeq [2; 3])) int64 order_C))])
    (Datatypes.S (next_data empty_world)).
Proof.
  split; [reflexivity|].
  exact (owner_lifecycle_allocate_release two_libraries (ShapeSeq [2; 3])
           int64 order_C mic0 stream_a empty_world PyNone
           (mk_world
              [buffer_allocate stream_a sum_mirror;
               buffer_release stream_a (Some sum_mirror)] 1)
           eq_refl).
Defined.

Lemma len_of_constructed_witness :
  __init__ two_libraries (ShapeSeq [6]) int64 order_C false (Some owner_2x3)
    (Some mic0) (Some stream_a) empty_world = (Ok view_6, empty_world) /\
  __len__ view_6 = 6.
Proof.
  split; [reflexivity|].
  exact (len_of_constructed two_libraries (ShapeSeq [6]) int64 order_C false
           (Some owner_2x3) (Some mic0) (Some stream_a) empty_world view_6
           empty_world eq_refl).
Defined.

Lemma fill_returns_self_one_kernel_witness :
  fill three_type_codes owner_2x3 (PyInt 7) empty_world =
    (Ok (PyHandle owner_2x3), mk_world [fill_call (PyInt 7)] 0) /\
  PyHandle owner_2x3 = PyHandle owner_2x3 /\
  dtype_eq_type (dtype owner_2x3) (type_of (PyInt 7)) = true /\
  exists dt,
    three_type_codes (dtype owner_2x3) = Ok dt /\
    mk_world [fill_call (PyInt 7)] 0 =
    mk_world
      (queue empty_world ++
       [invoke_kernel (stream owner_2x3) (_library owner_2x3)
          pymic_offload_array_fill
          [PyInt dt; PyInt (size owner_2x3); PyHandle owner_2x3; PyInt 7]])
      (next_data empty_world).
Proof.
  split; [reflexivity|].
  exact (fill_returns_self_one_kernel three_type_codes owner_2x3 (PyInt 7)
           empty_world (PyHandle owner_2x3) (mk_world [fill_call (PyInt 7)] 0)
           eq_refl).
Defined.

Lemma fill_zero_one_failure_leaves_world_witness :
  one three_type_codes owner_4_i32 PyNone world_after_add =
    (Raised (NameError "dtype"), world_after_add) /\
  world_after_add = world_after_add.
Proof.
  split; [reflexivity|].
  exact (fill_zero_one_failure_leaves_world three_type_codes owner_4_i32
           PyNone world_after_add (NameError "dtype") world_after_add
           (or_intror (or_intror eq_refl))).
Defined.

Lemma binop_scalar_type_mismatch_witness :
  three_type_codes (dtype owner_2x3) = Ok 0 /\
  is_scalar (PyFloat float_1_0) = true /\
  dtype_eq_type (dtype owner_2x3) (type_of (PyFloat float_1_0)) = false /\
  apply_binop three_type_codes two_libraries op_mul owner_2x3
    (PyFloat float_1_0) empty_world =
  (Raised (ValueError type_mismatch_text), empty_world).
Proof.
  do 3 (split; [reflexivity|]).
  exact (binop_scalar_type_mismatch three_type_codes two_libraries op_mul
           owner_2x3 (PyFloat float_1_0) empty_world 0 eq_refl eq_refl
           eq_refl).
Defined.


Lemma binop_failure_leaves_world_witness :
  two_libraries (device_id (device owner_4_i32)) = Some lib0 /\
  apply_binop three_type_codes two_libraries op_add owner_4_i32 (PyInt 1)
    world_after_add =
    (Raised (ValueError "unsupported data type"), world_after_add) /\
  world_after_add = world_after_add.
Proof.
  do 2 (split; [reflexivity|]).
  exact (binop_failure_leaves_world three_type_codes two_libraries op_add
           owner_4_i32 (PyInt 1) world_after_add
           (ValueError "unsupported data type") world_after_add lib0 eq_refl
           eq_refl).
Defined.

Lemma binop_without_mirror_raises_witness :
  three_type_codes (dtype bare_2x3) = Ok 0 /\
  array bare_2x3 = None /\
  is_scalar (PyHandle owner_2x3) = false /\
  apply_binop three_type_codes two_libraries op_add bare_2x3
    (PyHandle owner_2x3) empty_world =
  (Raised (AttributeError "'NoneType' object has no attribute 'shape'"),
   empty_world).
Proof.
  do 3 (split; [reflexivity|]).
  exact (binop_without_mirror_raises three_type_codes two_libraries op_add
           bare_2x3 (PyHandle owner_2x3) empty_world 0 eq_refl eq_refl
           eq_refl).
Defined.

Lemma assign_stream_redirects_later_commands_witness :
  device_is (get_device stream_b) (device owner_2x3) = true /\
  exists h',
    assign_stream stream_b (owner_2x3, empty_world) =
      (Ok PyNone, (h', empty_world)) /\
    update_device h' empty_world =
      (Ok PyNone,
       mk_world
         (queue empty_world ++
          [buffer_update_on_target stream_b (array owner_2x3)])
         (next_data empty_world)) /\
    update_host h' empty_world =
      (Ok (PyHandle h'),
       mk_world
         (queue empty_world ++
          [buffer_update_on_host stream_b (array owner_2x3)])
         (next_data empty_world)) /\
    __del__ h' empty_world =
      (Ok PyNone,
       if is_owner owner_2x3
       then mk_world
              (queue empty_world ++
               [buffer_release stream_b (array owner_2x3)])
              (next_data empty_world)
       else empty_world).
Proof.
  split; [reflexivity|].
  exact (assign_stream_redirects_later_commands owner_2x3 stream_b
           empty_world eq_refl).
Defined.

Lemma setslice_scalar_ignores_bounds_witness :
  is_scalar (PyInt 7) = true /\
  three_type_codes (dtype owner_2x3) = Ok 0 /\
  dtype_eq_type (dtype owner_2x3) (type_of (PyInt 7)) = true /\
  __setslice__ three_type_codes wrapping_bind owner_2x3 2 4 (PyInt 7)
    empty_world = (Ok PyNone, mk_world [fill_call (PyInt 7)] 0).
Proof.
  do 3 (split; [reflexivity|]).
  exact (setslice_scalar_ignores_bounds three_type_codes wrapping_bind
           owner_2x3 2 4 (PyInt 7) empty_world 0 eq_refl eq_refl eq_refl).
Defined.

Lemma setslice_no_type_code_raises_first_witness :
  three_type_codes (dtype owner_4_i32) =
    Raised (ValueError "unsupported data type") /\
  __setslice__ three_type_codes wrapping_bind owner_4_i32 0 2
    (PyArray mirror_4_i32) empty_world =
  (Raised (ValueError "unsupported data type"), empty_world).
Proof.
  split; [reflexivity|].
  exact (setslice_no_type_code_raises_first three_type_codes wrapping_bind
           owner_4_i32 0 2 (PyArray mirror_4_i32) empty_world
           (ValueError "unsupported data type") eq_refl).
Defined.
